(** * CipherSim: hash engine, attack simulator and password analyzer

    A shallow embedding of the core of [ciphersim]:
    - [core/hash_engine.py]       (module [HashEngine]),
    - [core/attack_simulator.py]  (module [AttackSimulator]),
    - [modules/password_analyzer.py] (module [PasswordAnalyzer]),
    - the command [simulate] of [cli.py] (module [Cli]),
    followed by the properties established about them.

    Conventions.
    - A Python [int] is a [Z]; a length or a repetition count is a [nat].
    - A Python [str] is a [string] of ASCII characters, on which [str.lower]
      and [str.upper] change the letters A-Z and a-z only.
    - In the hash engine a Python [float] is a binary64 [float]: the division
      of integers, the products, the quotients and the formatted output are
      those of IEEE 754 and of Python.
    - In the password analyzer the entropy is a real number: [math.log2] has
      no IEEE 754 definition, so it is the logarithm in base 2, and the
      arithmetic on its result is that of the reals.
    - A function that can raise returns a [result].
    - A generator is the list of the values it yields, in order; the wall
      clock, the progress bar and the console are left out. *)

From Stdlib Require Import ZArith List String Ascii Bool Arith Lia.
From Stdlib Require Import DecimalString.
From Stdlib Require Import Floats.PrimFloat Floats.SpecFloat Floats.FloatOps.
From Stdlib Require Import Reals Lra.
Import ListNotations.

Open Scope list_scope.
Open Scope string_scope.

(** A decimal float literal denotes the nearest binary64 value, as in Python. *)
Set Warnings "-inexact-float".

(** ** Exceptions *)

Inductive exn : Set :=
| ValueError
| ZeroDivisionError
| OverflowError
| LibraryError.

Inductive result (A : Type) : Type :=
| Ok (a : A)
| Raise (e : exn).

Arguments Ok {A} a.
Arguments Raise {A} e.

Definition bind {A B : Type} (c : result A) (k : A -> result B) : result B :=
  match c with
  | Ok a => k a
  | Raise e => Raise e
  end.

Notation "x <- c ;; k" := (bind c (fun x => k))
  (at level 61, c at next level, right associativity).

(** [try: body except Exception: return default] *)
Definition try_except {A : Type} (body : result A) (default : A) : A :=
  match body with
  | Ok a => a
  | Raise _ => default
  end.

(** ** Strings *)

Definition chars (s : string) : list ascii := list_ascii_of_string s.
Definition join (cs : list ascii) : string := string_of_list_ascii cs.

Definition code (c : ascii) : nat := nat_of_ascii c.

Definition char_in (c : ascii) (s : string) : bool :=
  existsb (Ascii.eqb c) (chars s).

Definition char_lower (c : ascii) : ascii :=
  if ((65 <=? code c) && (code c <=? 90))%nat then ascii_of_nat (code c + 32) else c.

Definition char_upper (c : ascii) : ascii :=
  if ((97 <=? code c) && (code c <=? 122))%nat then ascii_of_nat (code c - 32) else c.

Fixpoint str_map (f : ascii -> ascii) (s : string) : string :=
  match s with
  | EmptyString => EmptyString
  | String c rest => String (f c) (str_map f rest)
  end.

Definition lower (s : string) : string := str_map char_lower s.
Definition upper (s : string) : string := str_map char_upper s.

Definition capitalize (s : string) : string :=
  match s with
  | EmptyString => EmptyString
  | String c rest => String (char_upper c) (lower rest)
  end.

(** [sub in s]: some suffix of [s] starts with [sub]. *)
Fixpoint contains (sub s : string) : bool :=
  prefix sub s ||
  match s with
  | EmptyString => false
  | String _ rest => contains sub rest
  end.

(** [s.index(sub)], for a [sub] that occurs in [s]. *)
Fixpoint find (sub s : string) : nat :=
  if prefix sub s then 0%nat
  else match s with
       | EmptyString => 0%nat
       | String _ rest => S (find sub rest)
       end.

(** [str.strip()]: the ASCII characters of [str.isspace]. *)
Definition is_space (c : ascii) : bool :=
  existsb (Nat.eqb (code c)) [9; 10; 11; 12; 13; 28; 29; 30; 31; 32]%nat.

Fixpoint lstrip (s : string) : string :=
  match s with
  | EmptyString => EmptyString
  | String c rest => if is_space c then lstrip rest else s
  end.

Fixpoint rstrip (s : string) : string :=
  match s with
  | EmptyString => EmptyString
  | String c rest =>
      match rstrip rest with
      | EmptyString => if is_space c then EmptyString else String c EmptyString
      | kept => String c kept
      end
  end.

Definition strip (s : string) : string := rstrip (lstrip s).

(** [str(n)] for a natural number. *)
Definition decimal (n : Z) : string := NilZero.string_of_uint (N.to_uint (Z.to_N n)).

Fixpoint zeros (n : nat) : string :=
  match n with
  | O => EmptyString
  | S k => String "0" (zeros k)
  end.

Definition zero_pad (width : nat) (s : string) : string :=
  zeros (width - String.length s) ++ s.

(** [string.ascii_lowercase], [string.ascii_uppercase], [string.digits],
    [string.punctuation], [string.ascii_letters] *)
Definition ascii_lowercase : string := "abcdefghijklmnopqrstuvwxyz".
Definition ascii_uppercase : string := "ABCDEFGHIJKLMNOPQRSTUVWXYZ".
Definition ascii_letters : string := ascii_lowercase ++ ascii_uppercase.
Definition digits : string := "0123456789".
Definition punctuation : string :=
  "!" ++ String "034" "#$%&'()*+,-./:;<=>?@[\]^_`{|}~".

(** ** [itertools.product]

    [product [p1; ...; pn]] is [itertools.product(p1, ..., pn)]: the tuples
    are produced with the rightmost position advancing fastest. *)
Fixpoint product {A : Type} (pools : list (list A)) : list (list A) :=
  match pools with
  | [] => [[]]
  | pool :: rest => flat_map (fun x => map (cons x) (product rest)) pool
  end.

(** [range(lo, hi)] over naturals *)
Definition range (lo hi : nat) : list nat := seq lo (hi - lo).

(** ** Floats *)

(** [int / int]: the correctly rounded quotient (round half to even), with
    Python's two failures. *)
Definition int_true_divide (a b : Z) : result float :=
  if (b =? 0)%Z then Raise ZeroDivisionError
  else
    let negate := xorb (a <? 0)%Z (b <? 0)%Z in
    if (a =? 0)%Z then Ok (SF2Prim (S754_zero negate))
    else
      let '(q, e, loc) := SFdiv_core_binary prec emax (Z.abs a) 0 (Z.abs b) 0 in
      match binary_round_aux prec emax negate q e loc with
      | S754_infinity _ => Raise OverflowError
      | r => Ok (SF2Prim r)
      end.

Definition round_half_even (num den : Z) : Z :=
  let q := (num / den)%Z in
  match (2 * (num mod den) ?= den)%Z with
  | Lt => q
  | Gt => (q + 1)%Z
  | Eq => if Z.even q then q else (q + 1)%Z
  end.

(** [f"{x:.{places}f}"]: the exact binary value of [x], rounded half to even
    at [places] decimals. *)
Definition format_fixed (places : nat) (x : float) : string :=
  let unit := (10 ^ Z.of_nat places)%Z in
  let render (negative : bool) (n : Z) : string :=
    (if negative then "-" else "") ++ decimal (n / unit) ++
    (if (places =? 0)%nat then "" else "." ++ zero_pad places (decimal (n mod unit))) in
  match Prim2SF x with
  | S754_zero s => render s 0%Z
  | S754_infinity s => if s then "-inf" else "inf"
  | S754_nan => "nan"
  | S754_finite s m e =>
      let scaled := (Zpos m * unit)%Z in
      render s (if (0 <=? e)%Z then (scaled * 2 ^ e)%Z
                else round_half_even scaled (2 ^ (- e))%Z)
  end.

(** ** Dictionaries

    A dictionary is the list of its items, in insertion order. *)

(** [d.get(key, default)] *)
Definition dict_get {K V : Type} (eqb : K -> K -> bool) (d : list (K * V))
    (key : K) (default : V) : V :=
  match List.find (fun kv => eqb (fst kv) key) d with
  | Some (_, v) => v
  | None => default
  end.

(** [d[key]]: [None] stands for the [KeyError] of a missing key. *)
Definition subscript {K V : Type} (eqb : K -> K -> bool) (d : list (K * V))
    (key : K) : option V :=
  match List.find (fun kv => eqb (fst kv) key) d with
  | Some (_, v) => Some v
  | None => None
  end.

(** * [core/hash_engine.py] *)

Module HashEngine.

Inductive HashAlgorithm : Set :=
| ARGON2ID
| SCRYPT
| PBKDF2_SHA256
| PBKDF2_SHA512
| BCRYPT.

Inductive param : Type :=
| PInt (n : Z)
| PStr (s : string).

Record HashResult : Type := {
  hr_algorithm : HashAlgorithm;
  hash_value : string;
  salt : option string;
  parameters : list (string * param)
}.

Record CrackEstimate : Type := {
  seconds : float;
  human_readable : string;
  hashes_required : Z;
  algorithm : HashAlgorithm
}.

Definition GPU_PERFORMANCE (algorithm : HashAlgorithm) : Z :=
  match algorithm with
  | ARGON2ID => 50000
  | SCRYPT => 100000
  | PBKDF2_SHA256 => 10000000
  | PBKDF2_SHA512 => 5000000
  | BCRYPT => 500000
  end.

Definition _format_time (seconds : float) : string :=
  if (seconds <? 1)%float then
    format_fixed 2 (seconds * 1000)%float ++ " milliseconds"
  else if (seconds <? 60)%float then
    format_fixed 2 seconds ++ " seconds"
  else if (seconds <? 3600)%float then
    let minutes := (seconds / 60)%float in
    format_fixed 2 minutes ++ " minutes"
  else if (seconds <? 86400)%float then
    let hours := (seconds / 3600)%float in
    format_fixed 2 hours ++ " hours"
  else if (seconds <? 31536000)%float then
    let days := (seconds / 86400)%float in
    format_fixed 2 days ++ " days"
  else if (seconds <? 3153600000)%float then
    let years := (seconds / 31536000)%float in
    format_fixed 2 years ++ " years"
  else if (seconds <? 31536000000)%float then
    let years := (seconds / 31536000)%float in
    format_fixed 0 years ++ " years"
  else if (seconds <? 31536000000000)%float then
    let years := (seconds / 31536000)%float in
    format_fixed 0 (years / 1000)%float ++ " thousand years"
  else if (seconds <? 31536000000000000)%float then
    let years := (seconds / 31536000)%float in
    format_fixed 0 (years / 1000000)%float ++ " million years"
  else
    let years := (seconds / 31536000)%float in
    format_fixed 0 (years / 1000000000)%float ++ " billion years".

(** The local [hashes_per_second] of [estimate_crack_time]:
    [self.GPU_PERFORMANCE[algorithm] if use_gpu else 1000]. *)
Definition hashes_per_second (algorithm : HashAlgorithm) (use_gpu : bool) : Z :=
  if use_gpu then GPU_PERFORMANCE algorithm else 1000%Z.

Definition estimate_crack_time (password_length : nat) (charset_size : Z)
    (algorithm : HashAlgorithm) (use_gpu : bool) : result CrackEstimate :=
  let total_combinations := (charset_size ^ Z.of_nat password_length)%Z in
  let avg_combinations := (total_combinations / 2)%Z in
  let hashes_per_second := hashes_per_second algorithm use_gpu in
  seconds <- int_true_divide avg_combinations hashes_per_second ;;
  let human_readable := _format_time seconds in
  Ok {| seconds := seconds;
        human_readable := human_readable;
        hashes_required := avg_combinations;
        algorithm := algorithm |}.

(** The hashing primitives are those of [argon2], [bcrypt] and
    [cryptography]; the salt drawn from the random source is an argument, and
    the wall-clock [time_ms] is left out. *)
Inductive digest : Set := SHA256 | SHA512.

Section Primitives.

Variable argon2_hash : string -> string -> string.
Variable argon2_verify : string -> string -> result unit.
Variable bcrypt_hashpw : string -> Z -> string -> string.
Variable bcrypt_checkpw : string -> string -> result bool.
Variable scrypt_derive : string -> Z -> Z -> Z -> string -> string.
Variable pbkdf2_derive : digest -> string -> Z -> string -> string.
Variable hex : string -> string.

(** [params.get(key, default) if params else default] *)
Definition get_param (params : option (list (string * Z))) (key : string)
    (default : Z) : Z :=
  match params with
  | None => default
  | Some d =>
      match List.find (fun kv => String.eqb (fst kv) key) d with
      | Some (_, n) => n
      | None => default
      end
  end.

Definition _hash_argon2id (salt password : string) : HashResult :=
  let hash_value := argon2_hash salt password in
  {| hr_algorithm := ARGON2ID;
     hash_value := hash_value;
     salt := None;
     parameters := [("time_cost", PInt 3); ("memory_cost", PInt 65536);
                    ("parallelism", PInt 4)] |}.

Definition _hash_scrypt (salt password : string)
    (params : option (list (string * Z))) : HashResult :=
  let n := get_param params "n" (2 ^ 14) in
  let r := get_param params "r" 8 in
  let p := get_param params "p" 1 in
  let hash_value := scrypt_derive salt n r p password in
  {| hr_algorithm := SCRYPT;
     hash_value := hex hash_value;
     salt := Some (hex salt);
     parameters := [("n", PInt n); ("r", PInt r); ("p", PInt p)] |}.

Definition _hash_pbkdf2 (salt password : string) (hash_algo : digest)
    (params : option (list (string * Z))) : HashResult :=
  let iterations := get_param params "iterations" 600000 in
  let hash_value := pbkdf2_derive hash_algo salt iterations password in
  let algo_name :=
    match hash_algo with SHA256 => "SHA256" | SHA512 => "SHA512" end in
  {| hr_algorithm :=
       if String.eqb algo_name "SHA256" then PBKDF2_SHA256 else PBKDF2_SHA512;
     hash_value := hex hash_value;
     salt := Some (hex salt);
     parameters := [("iterations", PInt iterations); ("hash", PStr algo_name)] |}.

Definition _hash_bcrypt (salt password : string)
    (params : option (list (string * Z))) : HashResult :=
  let rounds := get_param params "rounds" 12 in
  let hash_value := bcrypt_hashpw password rounds salt in
  {| hr_algorithm := BCRYPT;
     hash_value := hash_value;
     salt := None;
     parameters := [("rounds", PInt rounds)] |}.

Definition hash_password (salt password : string) (algorithm : HashAlgorithm)
    (custom_params : option (list (string * Z))) : HashResult :=
  match algorithm with
  | ARGON2ID => _hash_argon2id salt password
  | SCRYPT => _hash_scrypt salt password custom_params
  | PBKDF2_SHA256 => _hash_pbkdf2 salt password SHA256 custom_params
  | PBKDF2_SHA512 => _hash_pbkdf2 salt password SHA512 custom_params
  | BCRYPT => _hash_bcrypt salt password custom_params
  end.

Definition verify_password (password hash_value : string)
    (algorithm : HashAlgorithm) : bool :=
  try_except
    (match algorithm with
     | ARGON2ID =>
         _ <- argon2_verify hash_value password ;;
         Ok true
     | BCRYPT => bcrypt_checkpw password hash_value
     | _ => Ok true
     end)
    false.

(** What the specification asks of [verify] for PBKDF2 and scrypt, to be
    compared with [verify_password]: hash the candidate password again with
    the salt and the parameters of the stored hash, and compare the
    digests. *)
Definition verify_by_rederivation (salt password : string)
    (algorithm : HashAlgorithm) (custom_params : option (list (string * Z)))
    (stored : string) : bool :=
  String.eqb (hash_value (hash_password salt password algorithm custom_params))
             stored.

End Primitives.

End HashEngine.

(** * [core/attack_simulator.py] *)

Module AttackSimulator.

Inductive AttackMode : Set :=
| DICTIONARY
| BRUTE_FORCE
| HYBRID
| MASK
| CREDENTIAL_STUFFING.

Record AttackConfig : Type := {
  mode : AttackMode;
  target_hash : string;
  algorithm : HashEngine.HashAlgorithm;
  max_attempts : Z;
  speed_limit : Z;
  charset : string;
  min_length : nat;
  max_length : nat;
  wordlist_path : option string;
  mask : option string
}.

(** The defaults of the dataclass. *)
Definition default_config (mode : AttackMode) (target_hash : string)
    (algorithm : HashEngine.HashAlgorithm) : AttackConfig :=
  {| mode := mode;
     target_hash := target_hash;
     algorithm := algorithm;
     max_attempts := 1000000;
     speed_limit := 10000;
     charset := ascii_lowercase ++ digits;
     min_length := 1;
     max_length := 8;
     wordlist_path := None;
     mask := None |}.

(** [time_seconds], the wall-clock duration of the call, is left out. *)
Record AttackResult : Type := {
  success : bool;
  password_found : option string;
  attempts : Z;
  ar_mode : AttackMode;
  stopped_by_limit : bool
}.

(** The files the simulator can read: the lines of the file at a path, when
    the path exists. *)
Definition filesystem : Type := string -> option (list string).

(** The only field of the simulator that its methods read or write
    (the hash engine held beside it is never used by them). *)
Record AttackSimulator : Type := {
  _stop_requested : bool
}.

Definition init : AttackSimulator := {| _stop_requested := false |}.

Definition stop (self : AttackSimulator) : AttackSimulator :=
  {| _stop_requested := true |}.

Definition _default_wordlist : list string :=
  [ "password"; "123456"; "12345678"; "qwerty"; "abc123";
    "password123"; "admin"; "letmein"; "welcome"; "monkey";
    "dragon"; "master"; "sunshine"; "princess"; "football";
    "iloveyou"; "shadow"; "michael"; "superman"; "trustno1" ].

Definition _dictionary_generator (fs : filesystem) (config : AttackConfig)
    : list string :=
  match wordlist_path config with
  | None => _default_wordlist
  | Some path =>
      match fs path with
      | None => _default_wordlist
      | Some lines =>
          filter (fun password => negb (password =? "")) (map strip lines)
      end
  end.

Definition _brute_force_generator (config : AttackConfig) : list string :=
  flat_map
    (fun length => map join (product (repeat (chars (charset config)) length)))
    (range (min_length config) (max_length config + 1)).

Definition leet_map (c : ascii) : option ascii :=
  if (c =? "a")%char then Some "4"%char
  else if (c =? "e")%char then Some "3"%char
  else if (c =? "i")%char then Some "1"%char
  else if (c =? "o")%char then Some "0"%char
  else if (c =? "s")%char then Some "5"%char
  else if (c =? "t")%char then Some "7"%char
  else None.

Definition mutations (word : string) : list string :=
  ([word; capitalize word; upper word; lower word] ++
   flat_map (fun num => [(word ++ num)%string; (capitalize word ++ num)%string])
            ["1"; "123"; "2024"; "2025"; "!"] ++
   (let leet_word :=
      str_map (fun c => match leet_map (char_lower c) with
                        | Some d => d
                        | None => c
                        end) word in
    if negb (leet_word =? word) then [leet_word] else []))%list.

Definition _hybrid_generator (fs : filesystem) (config : AttackConfig)
    : list string :=
  flat_map mutations (_dictionary_generator fs config).

(** What one placeholder appends to [charsets]: a pool, or nothing. *)
Definition placeholder_charset (placeholder : ascii) : option (list ascii) :=
  if (placeholder =? "l")%char then Some (chars ascii_lowercase)
  else if (placeholder =? "u")%char then Some (chars ascii_uppercase)
  else if (placeholder =? "d")%char then Some (chars digits)
  else if (placeholder =? "s")%char then Some (chars "!@#$%^&*()_+-=[]{}|;:,.<>?")
  else if (placeholder =? "a")%char then
    Some (chars (ascii_letters ++ digits ++ punctuation))
  else None.

(** The [while i < len(mask)] loop: [mask] is what remains from index [i]. *)
Fixpoint parse_mask (mask : string) : list (list ascii) :=
  match mask with
  | EmptyString => []
  | String c rest =>
      match rest with
      | String placeholder rest' =>
          if (c =? "?")%char then
            match placeholder_charset placeholder with
            | Some pool => pool :: parse_mask rest'
            | None => parse_mask rest'
            end
          else [c] :: parse_mask rest
      | EmptyString => [c] :: parse_mask rest
      end
  end.

Definition _mask_generator (config : AttackConfig) : list string :=
  match mask config with
  | None => _brute_force_generator config
  | Some EmptyString => _brute_force_generator config
  | Some mask => map join (product (parse_mask mask))
  end.

Definition _credential_stuffing_generator (config : AttackConfig) : list string :=
  let demo_credentials :=
    [ ("user1@example.com", "Password123!");
      ("testuser@demo.com", "Welcome2024");
      ("admin@test.local", "Admin@123");
      ("demo@email.com", "Summer2024!") ] in
  map snd demo_credentials.

(** The dispatch on [config.mode]; its last branch, which raises
    [ValueError], is not reachable with a member of the enumeration. *)
Definition candidates_for (fs : filesystem) (config : AttackConfig) : list string :=
  match mode config with
  | DICTIONARY => _dictionary_generator fs config
  | BRUTE_FORCE => _brute_force_generator config
  | HYBRID => _hybrid_generator fs config
  | MASK => _mask_generator config
  | CREDENTIAL_STUFFING => _credential_stuffing_generator config
  end.

(** [if attempts > 0 and attempts % config.speed_limit == 0: time.sleep(1.0)]:
    the sleep only delays; the modulo raises for a zero divisor. *)
Definition rate_limit (config : AttackConfig) (attempts : Z) : result unit :=
  if (0 <? attempts)%Z then
    if (speed_limit config =? 0)%Z then Raise ZeroDivisionError
    else Ok tt
  else Ok tt.

(** The [for candidate in candidates] loop; the triple is
    [(found, attempts, stopped_by_limit)] when the loop is left. The flag
    [_stop_requested] is read after each candidate; execution is
    single-threaded, so it is the flag the call started with. *)
Fixpoint attack_loop (self : AttackSimulator) (config : AttackConfig)
    (target_password : string) (candidates : list string) (attempts : Z)
    : result (bool * Z * bool) :=
  match candidates with
  | [] => Ok (false, attempts, false)
  | candidate :: rest =>
      _ <- rate_limit config attempts ;;
      if candidate =? target_password then Ok (true, attempts, false)
      else
        let attempts := (attempts + 1)%Z in
        if (attempts >=? max_attempts config)%Z then Ok (false, attempts, true)
        else if _stop_requested self then Ok (false, attempts, false)
        else attack_loop self config target_password rest attempts
  end.

(** The body of [simulate_attack] after the generator is chosen: the loop
    and the construction of the result. *)
Definition run_attack (self : AttackSimulator) (config : AttackConfig)
    (target_password : string) (candidates : list string) : result AttackResult :=
  out <- attack_loop self config target_password candidates 0 ;;
  let '(found, attempts, stopped_by_limit) := out in
  Ok {| success := found;
        password_found := if found then Some target_password else None;
        attempts := attempts;
        ar_mode := mode config;
        stopped_by_limit := stopped_by_limit |}.

(** The method returns its result and leaves the simulator as it finds it:
    no statement of it assigns [_stop_requested]. *)
Definition simulate_attack (self : AttackSimulator) (fs : filesystem)
    (config : AttackConfig) (target_password : string)
    : result AttackResult * AttackSimulator :=
  let candidates := candidates_for fs config in
  (run_attack self config target_password candidates, self).

(** ** [GPUSimulator] *)

Definition algorithm_eqb (a b : HashEngine.HashAlgorithm) : bool :=
  match a, b with
  | HashEngine.ARGON2ID, HashEngine.ARGON2ID
  | HashEngine.SCRYPT, HashEngine.SCRYPT
  | HashEngine.PBKDF2_SHA256, HashEngine.PBKDF2_SHA256
  | HashEngine.PBKDF2_SHA512, HashEngine.PBKDF2_SHA512
  | HashEngine.BCRYPT, HashEngine.BCRYPT => true
  | _, _ => false
  end.

Definition GPU_TIERS : list (string * list (HashEngine.HashAlgorithm * Z)) :=
  [ ("RTX_4090",
     [ (HashEngine.ARGON2ID, 50000%Z);
       (HashEngine.SCRYPT, 100000%Z);
       (HashEngine.PBKDF2_SHA256, 10000000%Z);
       (HashEngine.BCRYPT, 500000%Z) ]);
    ("RTX_3080",
     [ (HashEngine.ARGON2ID, 30000%Z);
       (HashEngine.SCRYPT, 60000%Z);
       (HashEngine.PBKDF2_SHA256, 6000000%Z);
       (HashEngine.BCRYPT, 300000%Z) ]);
    ("CPU_ONLY",
     [ (HashEngine.ARGON2ID, 1000%Z);
       (HashEngine.SCRYPT, 2000%Z);
       (HashEngine.PBKDF2_SHA256, 100000%Z);
       (HashEngine.BCRYPT, 10000%Z) ]) ].

(** [cls.GPU_TIERS.get(gpu_tier, cls.GPU_TIERS["CPU_ONLY"]).get(algorithm, 1000)];
    the key ["CPU_ONLY"] is present, so the subscript does not raise. *)
Definition estimate_performance (algorithm : HashEngine.HashAlgorithm)
    (gpu_tier : string) : Z :=
  let cpu_only :=
    match subscript String.eqb GPU_TIERS "CPU_ONLY" with
    | Some tier => tier
    | None => []
    end in
  dict_get algorithm_eqb (dict_get String.eqb GPU_TIERS gpu_tier cpu_only)
    algorithm 1000%Z.

Definition get_performance_comparison
    : list (string * list (HashEngine.HashAlgorithm * Z)) :=
  GPU_TIERS.

End AttackSimulator.

(** * [modules/password_analyzer.py] *)

Module PasswordAnalyzer.

Inductive PasswordStrength : Set :=
| VERY_WEAK
| WEAK
| MODERATE
| STRONG
| VERY_STRONG.

Record PatternMatch : Type := {
  pattern_type : string;
  description : string;
  severity : string;
  position : nat * nat
}.

Record PasswordAnalysis : Type := {
  password : string;
  pa_length : nat;
  charset_size : Z;
  entropy_bits : R;
  strength : PasswordStrength;
  patterns : list PatternMatch;
  crack_time_estimates : list (string * (string * string));
  score : Z;
  recommendations : list string
}.

Definition KEYBOARD_PATTERNS : list string :=
  [ "qwerty"; "asdfgh"; "zxcvbn"; "12345"; "qwertyuiop";
    "asdfghjkl"; "zxcvbnm"; "qazwsx"; "1qaz2wsx" ].

Definition SEQUENCES : list string := [ "abc"; "123"; "xyz"; "rst" ].

Definition is_digit (c : ascii) : bool := char_in c digits.

(** [YEAR_PATTERN.search]: the first match of [(19|20)\d{2}], as its start
    and its text. *)
Definition year_at (s : string) : option string :=
  match s with
  | String a (String b (String c (String d _))) =>
      if (((a =? "1")%char && (b =? "9")%char) ||
          ((a =? "2")%char && (b =? "0")%char)) && is_digit c && is_digit d
      then Some (String a (String b (String c (String d EmptyString))))
      else None
  | _ => None
  end.

Fixpoint year_search (s : string) (i : nat) : option (nat * string) :=
  match year_at s with
  | Some text => Some (i, text)
  | None =>
      match s with
      | EmptyString => None
      | String _ rest => year_search rest (S i)
      end
  end.

Definition _load_common_passwords : list string :=
  [ "password"; "123456"; "12345678"; "qwerty"; "abc123";
    "password123"; "admin"; "letmein"; "welcome"; "monkey";
    "dragon"; "master"; "sunshine"; "princess"; "football";
    "iloveyou"; "shadow"; "michael"; "superman"; "trustno1";
    "passw0rd"; "admin123"; "root"; "toor"; "password1" ].

Definition common_passwords : list string := _load_common_passwords.

(** [any(c in cls for c in password)] *)
Definition any_in (cls password : string) : bool :=
  existsb (fun c => char_in c cls) (chars password).

Definition _calculate_charset_size (password : string) : Z :=
  let has_lowercase := any_in ascii_lowercase password in
  let has_uppercase := any_in ascii_uppercase password in
  let has_digits := any_in digits password in
  let has_special := any_in punctuation password in
  let has_space := char_in " " password in
  let size := 0%Z in
  let size := if has_lowercase then (size + 26)%Z else size in
  let size := if has_uppercase then (size + 26)%Z else size in
  let size := if has_digits then (size + 10)%Z else size in
  let size := if has_special then (size + 32)%Z else size in
  let size := if has_space then (size + 1)%Z else size in
  if (size >? 0)%Z then size else 1%Z.

(** [math.log2] of an integer: the logarithm in base 2, a [ValueError]
    outside its domain. *)
Definition math_log2 (x : Z) : result R :=
  if (x <=? 0)%Z then Raise ValueError else Ok (ln (IZR x) / ln 2)%R.

Definition _calculate_entropy (password : string) (charset_size : Z) : result R :=
  if (String.length password =? 0)%nat || (charset_size =? 0)%Z then Ok 0%R
  else math_log2 (charset_size ^ Z.of_nat (String.length password)).

(** The first run of three equal characters: its index and its character. *)
Fixpoint find_repetition (password : string) (i : nat) : option (nat * ascii) :=
  match password with
  | EmptyString => None
  | String a rest =>
      match rest with
      | String b (String c _) =>
          if (a =? b)%char && (b =? c)%char then Some (i, a)
          else find_repetition rest (S i)
      | _ => None
      end
  end.

Definition _detect_patterns (password : string) : list PatternMatch :=
  let password_lower := lower password in
  ((if existsb (String.eqb password_lower) common_passwords then
      [ {| pattern_type := "Common Password";
           description := "This is a commonly used password";
           severity := "high";
           position := (0, String.length password)%nat |} ]
    else []) ++
   flat_map
     (fun pattern =>
        if contains pattern password_lower then
          [ {| pattern_type := "Keyboard Pattern";
               description := ("Contains keyboard pattern: " ++ pattern)%string;
               severity := "high";
               position := (find pattern password_lower,
                            find pattern password_lower + String.length pattern)%nat |} ]
        else [])
     KEYBOARD_PATTERNS ++
   flat_map
     (fun seq =>
        if contains seq password_lower then
          [ {| pattern_type := "Character Sequence";
               description := ("Contains character sequence: " ++ seq)%string;
               severity := "medium";
               position := (find seq password_lower,
                            find seq password_lower + String.length seq)%nat |} ]
        else [])
     SEQUENCES ++
   match find_repetition password 0 with
   | Some (i, c) =>
       [ {| pattern_type := "Character Repetition";
            description := ("Repeated character: " ++ String c EmptyString)%string;
            severity := "medium";
            position := (i, i + 3)%nat |} ]
   | None => []
   end ++
   match year_search password 0 with
   | Some (start, text) =>
       [ {| pattern_type := "Date/Year";
            description := ("Contains year: " ++ text)%string;
            severity := "medium";
            position := (start, start + 4)%nat |} ]
   | None => []
   end ++
   (let leet_found := existsb (fun char => char_in char password) (chars "@310$7") in
    if leet_found then
      [ {| pattern_type := "L33t Speak";
           description := "Uses common character substitutions (easily defeated)";
           severity := "low";
           position := (0, String.length password)%nat |} ]
    else []))%list.

Definition _estimate_crack_times (password : string) (length : nat)
    (charset_size : Z) : result (list (string * (string * string))) :=
  let algorithms :=
    [ (HashEngine.ARGON2ID, "Argon2id (2025 Recommended)");
      (HashEngine.BCRYPT, "bcrypt");
      (HashEngine.PBKDF2_SHA256, "PBKDF2-SHA256") ] in
  fold_left
    (fun estimates entry =>
       let '(algo, display_name) := entry in
       estimates <- estimates ;;
       cpu_estimate <- HashEngine.estimate_crack_time length charset_size algo false ;;
       gpu_estimate <- HashEngine.estimate_crack_time length charset_size algo true ;;
       Ok (estimates ++
           [(display_name, (HashEngine.human_readable cpu_estimate,
                            HashEngine.human_readable gpu_estimate))])%list)
    algorithms (Ok []).

(** [int(x)] for a float: its integer part, towards zero. *)
Definition int_of_float (x : R) : Z :=
  if Rle_dec 0 x then Int_part x else (- Int_part (- x))%Z.

Definition _calculate_score (password : string) (entropy : R)
    (patterns : list PatternMatch) : Z :=
  let score := Z.min 100 (int_of_float (entropy / 128 * 100)%R) in
  let score :=
    fold_left
      (fun score pattern =>
         if severity pattern =? "high" then (score - 25)%Z
         else if severity pattern =? "medium" then (score - 15)%Z
         else if severity pattern =? "low" then (score - 5)%Z
         else score)
      patterns score in
  let score :=
    if (16 <=? String.length password)%nat then (score + 10)%Z
    else if (12 <=? String.length password)%nat then (score + 5)%Z
    else score in
  Z.max 0 (Z.min 100 score).

Definition _categorize_strength (score : Z) (entropy : R) : PasswordStrength :=
  if (score >=? 80)%Z && (if Rle_dec 80 entropy then true else false) then VERY_STRONG
  else if (score >=? 60)%Z && (if Rle_dec 60 entropy then true else false) then STRONG
  else if (score >=? 40)%Z && (if Rle_dec 40 entropy then true else false) then MODERATE
  else if (score >=? 20)%Z then WEAK
  else VERY_WEAK.

Definition has_pattern (name : string) (patterns : list PatternMatch) : bool :=
  existsb (fun p => pattern_type p =? name) patterns.

Definition _generate_recommendations (password : string) (length : nat)
    (charset_size : Z) (patterns : list PatternMatch)
    (strength : PasswordStrength) : list string :=
  let recommendations :=
    ((if (length <? 12)%nat then
        [ ("Increase length to at least 12 characters (current: " ++
           decimal (Z.of_nat length) ++ "). " ++
           "Each additional character exponentially increases security.")%string ]
      else if (length <? 16)%nat then
        [ "Consider using 16+ characters for maximum security in 2025." ]
      else []) ++
     (if (charset_size <? 62)%Z then
        [ "Use a mix of uppercase, lowercase, numbers, and special characters." ]
      else []) ++
     (if has_pattern "Common Password" patterns then
        [ "CRITICAL: This is a commonly used password. Change it immediately!" ]
      else []) ++
     (if has_pattern "Keyboard Pattern" patterns then
        [ "Avoid keyboard patterns (qwerty, asdf, etc.). Use random characters instead." ]
      else []) ++
     (if has_pattern "Date/Year" patterns then
        [ "Avoid using dates or years. This information can be easily guessed." ]
      else []) ++
     (match strength with
      | VERY_WEAK | WEAK =>
          [ "Use a password manager to generate and store strong, unique passwords.";
            "Enable Multi-Factor Authentication (MFA) for critical accounts." ]
      | _ => []
      end))%list in
  match recommendations with
  | [] =>
      [ "✓ Password is strong! Remember to use unique passwords for each account.";
        "✓ Enable MFA for additional security layer." ]
  | _ => recommendations
  end.

(** [analyze], without the display of the result. *)
Definition analyze (password : string) : result PasswordAnalysis :=
  let length := String.length password in
  let charset_size := _calculate_charset_size password in
  entropy <- _calculate_entropy password charset_size ;;
  let patterns := _detect_patterns password in
  crack_times <- _estimate_crack_times password length charset_size ;;
  let score := _calculate_score password entropy patterns in
  let strength := _categorize_strength score entropy in
  let recommendations :=
    _generate_recommendations password length charset_size patterns strength in
  Ok {| password := password;
        pa_length := length;
        charset_size := charset_size;
        entropy_bits := entropy;
        strength := strength;
        patterns := patterns;
        crack_time_estimates := crack_times;
        score := score;
        recommendations := recommendations |}.

End PasswordAnalyzer.

(** * [cli.py] *)

Module Cli.

(** The command [simulate], up to the result it displays: the two lookups
    that turn the option values into enumeration members, the configuration
    and the call of the simulator. [None] stands for the [KeyError] of a
    lookup; the duration shown with the result is left out. *)
Definition mode_map : list (string * AttackSimulator.AttackMode) :=
  [ ("dictionary", AttackSimulator.DICTIONARY);
    ("brute_force", AttackSimulator.BRUTE_FORCE);
    ("hybrid", AttackSimulator.HYBRID);
    ("mask", AttackSimulator.MASK) ].

Definition algo_map : list (string * HashEngine.HashAlgorithm) :=
  [ ("argon2id", HashEngine.ARGON2ID);
    ("bcrypt", HashEngine.BCRYPT);
    ("pbkdf2_sha256", HashEngine.PBKDF2_SHA256) ].

Definition simulate_config (mode algorithm : string) (max_attempts : Z)
    (mask : option string) : option AttackSimulator.AttackConfig :=
  match subscript String.eqb mode_map mode with
  | None => None
  | Some attack_mode =>
      match subscript String.eqb algo_map algorithm with
      | None => None
      | Some hash_algorithm =>
          Some {| AttackSimulator.mode := attack_mode;
                  AttackSimulator.target_hash := "simulated_hash";
                  AttackSimulator.algorithm := hash_algorithm;
                  AttackSimulator.max_attempts := max_attempts;
                  AttackSimulator.speed_limit := 10000;
                  AttackSimulator.charset := ascii_lowercase ++ digits;
                  AttackSimulator.min_length := 1;
                  AttackSimulator.max_length := 8;
                  AttackSimulator.wordlist_path := None;
                  AttackSimulator.mask := mask |}
      end
  end.

Definition simulate (fs : AttackSimulator.filesystem) (mode target algorithm : string)
    (max_attempts : Z) (mask : option string)
    : option (result AttackSimulator.AttackResult) :=
  match simulate_config mode algorithm max_attempts mask with
  | None => None
  | Some config =>
      let simulator := AttackSimulator.init in
      Some (fst (AttackSimulator.simulate_attack simulator fs config target))
  end.

(** Option 3 of the command [interactive]: the answers typed at the two
    prompts are the arguments. *)
Definition interactive_simulate (fs : AttackSimulator.filesystem)
    (mode_choice target : string) : option (result AttackSimulator.AttackResult) :=
  let mode_map := [("1", "dictionary"); ("2", "brute_force"); ("3", "hybrid")] in
  let mode := dict_get String.eqb mode_map mode_choice "dictionary" in
  simulate fs mode target "argon2id" 100000 None.

End Cli.

(** * Vocabulary of the statements *)

(** [digits_of b n i]: the [n] digits of [i] in base [b], most significant
    first. *)
Fixpoint digits_of (b n i : nat) : list nat :=
  match n with
  | O => []
  | S k => (i / b ^ k)%nat :: digits_of b k (i mod b ^ k)
  end.

(** The lexicographic order on digit lists: the leftmost difference decides. *)
Inductive lex_lt : list nat -> list nat -> Prop :=
| lex_lt_head (x y : nat) (xs ys : list nat) :
    (x < y)%nat -> lex_lt (x :: xs) (y :: ys)
| lex_lt_tail (x : nat) (xs ys : list nat) :
    lex_lt xs ys -> lex_lt (x :: xs) (x :: ys).

(** [numeral cs n i]: the [n]-digit numeral of [i] in base [length cs],
    written with the characters of [cs]: digit [d] is the character of [cs]
    at index [d]. *)
Definition numeral (cs : list ascii) (n i : nat) : list ascii :=
  map (fun d => nth d cs "000"%char) (digits_of (List.length cs) n i).

(** The words of length [n] over [cs] in lexicographic product order: the
    numerals of 0, 1, 2, ... (the leftmost position varies slowest). *)
Definition words (cs : list ascii) (n : nat) : list string :=
  map (fun i => join (numeral cs n i)) (seq 0 (List.length cs ^ n)).

(** Configurations of the statements: the defaults of the dataclass with the
    named fields replaced. *)
Definition with_search_space (config : AttackSimulator.AttackConfig)
    (charset : string) (min_length max_length : nat)
    : AttackSimulator.AttackConfig :=
  {| AttackSimulator.mode := AttackSimulator.mode config;
     AttackSimulator.target_hash := AttackSimulator.target_hash config;
     AttackSimulator.algorithm := AttackSimulator.algorithm config;
     AttackSimulator.max_attempts := AttackSimulator.max_attempts config;
     AttackSimulator.speed_limit := AttackSimulator.speed_limit config;
     AttackSimulator.charset := charset;
     AttackSimulator.min_length := min_length;
     AttackSimulator.max_length := max_length;
     AttackSimulator.wordlist_path := AttackSimulator.wordlist_path config;
     AttackSimulator.mask := AttackSimulator.mask config |}.

Definition with_mask (config : AttackSimulator.AttackConfig) (mask : string)
    : AttackSimulator.AttackConfig :=
  {| AttackSimulator.mode := AttackSimulator.mode config;
     AttackSimulator.target_hash := AttackSimulator.target_hash config;
     AttackSimulator.algorithm := AttackSimulator.algorithm config;
     AttackSimulator.max_attempts := AttackSimulator.max_attempts config;
     AttackSimulator.speed_limit := AttackSimulator.speed_limit config;
     AttackSimulator.charset := AttackSimulator.charset config;
     AttackSimulator.min_length := AttackSimulator.min_length config;
     AttackSimulator.max_length := AttackSimulator.max_length config;
     AttackSimulator.wordlist_path := AttackSimulator.wordlist_path config;
     AttackSimulator.mask := Some mask |}.

Definition brute_force_attack (charset : string) (min_length max_length : nat)
    : AttackSimulator.AttackConfig :=
  with_search_space
    (AttackSimulator.default_config AttackSimulator.BRUTE_FORCE "simulated_hash"
       HashEngine.ARGON2ID)
    charset min_length max_length.

Definition mask_attack (mask : string) : AttackSimulator.AttackConfig :=
  with_mask
    (AttackSimulator.default_config AttackSimulator.MASK "simulated_hash"
       HashEngine.ARGON2ID)
    mask.


(** A call of one of the two public methods of a simulator, and the simulator
    after a call. *)
Inductive call : Type :=
| CallStop
| CallSimulate (fs : AttackSimulator.filesystem)
               (config : AttackSimulator.AttackConfig) (target_password : string).

Definition after_call (self : AttackSimulator.AttackSimulator) (c : call)
    : AttackSimulator.AttackSimulator :=
  match c with
  | CallStop => AttackSimulator.stop self
  | CallSimulate fs config target_password =>
      snd (AttackSimulator.simulate_attack self fs config target_password)
  end.

(** The algorithms [verify_password] handles in its last branch. *)
Definition is_kdf (algorithm : HashEngine.HashAlgorithm) : bool :=
  match algorithm with
  | HashEngine.SCRYPT | HashEngine.PBKDF2_SHA256 | HashEngine.PBKDF2_SHA512 => true
  | HashEngine.ARGON2ID | HashEngine.BCRYPT => false
  end.

(** The entropy [analyze] computes for a password. *)
Definition entropy_of (password : string) : R :=
  match PasswordAnalyzer._calculate_entropy password
          (PasswordAnalyzer._calculate_charset_size password) with
  | Ok entropy => entropy
  | Raise _ => 0%R
  end.

(** The number of patterns of one severity, the bonus for the length and the
    clamp of the score formula. *)
Definition count_severity (level : string)
    (patterns : list PasswordAnalyzer.PatternMatch) : Z :=
  Z.of_nat (List.length
              (filter (fun p => PasswordAnalyzer.severity p =? level) patterns)).

Definition length_bonus (password : string) : Z :=
  if (16 <=? String.length password)%nat then 10%Z
  else if (12 <=? String.length password)%nat then 5%Z
  else 0%Z.

Definition clamp (score : Z) : Z := Z.max 0 (Z.min 100 score).

(** The score in integers only: the floor of [entropy / 128 * 100] is the
    integer logarithm of the hundredth power of the keyspace, divided by 128. *)
Definition score_of (password : string) : Z :=
  let keyspace :=
    (PasswordAnalyzer._calculate_charset_size password
     ^ Z.of_nat (String.length password))%Z in
  let patterns := PasswordAnalyzer._detect_patterns password in
  clamp (Z.min 100 (Z.log2 (keyspace ^ Z.of_nat 100) / 128)
         - 25 * count_severity "high" patterns
         - 15 * count_severity "medium" patterns
         - 5 * count_severity "low" patterns
         + length_bonus password).

(** The number of words over an alphabet of [cs] characters whose length is
    one of [lengths]. *)
Definition search_space_size (cs : Z) (lengths : list nat) : Z :=
  fold_right (fun n total => (cs ^ Z.of_nat n + total)%Z) 0%Z lengths.

(** The mask made of [n] copies of the placeholder [?p]. *)
Fixpoint repeat_placeholder (p : ascii) (n : nat) : string :=
  match n with
  | O => EmptyString
  | S k => String "?" (String p (repeat_placeholder p k))
  end.

(** The members of [PasswordStrength] in the order of their definition. *)
Definition strength_rank (s : PasswordAnalyzer.PasswordStrength) : Z :=
  match s with
  | PasswordAnalyzer.VERY_WEAK => 0
  | PasswordAnalyzer.WEAK => 1
  | PasswordAnalyzer.MODERATE => 2
  | PasswordAnalyzer.STRONG => 3
  | PasswordAnalyzer.VERY_STRONG => 4
  end%Z.

(** [s[i:j]] *)
Definition slice (s : string) (i j : nat) : string := substring i (j - i) s.

(** A password of [4 + n] characters that has a lowercase letter, an uppercase
    letter, a space, a symbol and, for [n > 0], a digit. *)
Definition long_password (n : nat) : string := "aA !" ++ zeros n.

(** ** Tactics *)



(** * Properties *)

(** ** Lists and strings *)

Lemma chars_join (cs : list ascii) : chars (join cs) = cs.
Proof. apply list_ascii_of_string_of_list_ascii. Qed.

Lemma join_chars (s : string) : join (chars s) = s.
Proof. apply string_of_list_ascii_of_string. Qed.

Lemma length_chars (s : string) : List.length (chars s) = String.length s.
Proof. induction s; simpl; congruence. Qed.

Lemma flat_map_length_const {A B : Type} (f : A -> list B) (l : list A) (m : nat) :
  (forall x, In x l -> List.length (f x) = m) ->
  List.length (flat_map f l) = (List.length l * m)%nat.
Proof.
  induction l as [|x l IH]; intros H; simpl; [reflexivity|].
  rewrite List.length_app, H by (left; reflexivity).
  rewrite IH; [reflexivity|]. intros y Hy. apply H. right. exact Hy.
Qed.

(** ** [itertools.product] *)

Lemma product_length {A : Type} (pools : list (list A)) :
  List.length (product pools) =
  fold_right (fun pool n => (List.length pool * n)%nat) 1%nat pools.
Proof.
  induction pools as [|pool rest IH]; simpl; [reflexivity|].
  rewrite (flat_map_length_const _ _ (List.length (product rest))).
  - rewrite IH. reflexivity.
  - intros x _. apply List.length_map.
Qed.

(** A tuple is produced exactly when each position holds an element of its
    pool. *)
Lemma product_In {A : Type} (pools : list (list A)) (t : list A) :
  In t (product pools) <-> Forall2 (fun x pool => In x pool) t pools.
Proof.
  revert t. induction pools as [|pool rest IH]; intros t; simpl.
  - split.
    + intros [<-|[]]. constructor.
    + intros H. inversion H. left. reflexivity.
  - rewrite in_flat_map. split.
    + intros (x & Hx & Ht). apply in_map_iff in Ht as (t' & <- & Ht').
      constructor; [exact Hx | apply IH; exact Ht'].
    + intros H. inversion H as [|x pool' t' rest' Hx Ht']; subst.
      exists x. split; [exact Hx|]. apply in_map. apply IH. exact Ht'.
Qed.

Lemma Forall2_repeat_r {A : Type} (cs : list A) (n : nat) (t : list A) :
  Forall2 (fun x pool => In x pool) t (repeat cs n) <->
  List.length t = n /\ (forall x, In x t -> In x cs).
Proof.
  revert t. induction n as [|n IH]; intros t; simpl.
  - split.
    + intros H. inversion H. split; [reflexivity | intros x []].
    + intros [H _]. destruct t; [constructor | discriminate].
  - split.
    + intros H. inversion H as [|x pool t' rest Hx Ht']; subst.
      apply IH in Ht' as [Hl Hin]. split; [simpl; congruence|].
      intros y [<-|Hy]; [exact Hx | apply Hin; exact Hy].
    + intros [Hl Hin]. destruct t as [|x t']; [discriminate|].
      constructor; [apply Hin; left; reflexivity|].
      apply IH. split; [simpl in Hl; congruence|].
      intros y Hy. apply Hin. right. exact Hy.
Qed.

Lemma map_seq_offset {B : Type} (f : nat -> B) (k m : nat) :
  map f (seq k m) = map (fun r => f (k + r)%nat) (seq 0 m).
Proof.
  revert k. induction m as [|m IH]; intros k; simpl; [reflexivity|].
  f_equal; [f_equal; lia|].
  rewrite IH, <- (seq_shift m 0), map_map.
  apply map_ext. intros r. f_equal. lia.
Qed.

Lemma map_seq_blocks {B : Type} (f : nat -> B) (a m : nat) :
  map f (seq 0 (a * m)) =
  flat_map (fun q => map (fun r => f (q * m + r)%nat) (seq 0 m)) (seq 0 a).
Proof.
  induction a as [|a IH]; [reflexivity|].
  replace (S a * m)%nat with (a * m + m)%nat by lia.
  rewrite seq_app, map_app, IH, seq_S, flat_map_app. f_equal.
  simpl. rewrite app_nil_r. apply map_seq_offset.
Qed.

Lemma flat_map_map {A B C : Type} (h : A -> B) (f : B -> list C) (l : list A) :
  flat_map f (map h l) = flat_map (fun x => f (h x)) l.
Proof. induction l as [|x l IH]; simpl; [reflexivity | rewrite IH; reflexivity]. Qed.

Lemma flat_map_nth {B : Type} (cs : list ascii) (g : ascii -> list B) :
  flat_map g cs = flat_map (fun q => g (nth q cs "000"%char)) (seq 0 (List.length cs)).
Proof.
  induction cs as [|c cs IH]; simpl; [reflexivity|].
  f_equal. rewrite <- seq_shift, flat_map_map. exact IH.
Qed.

(** [itertools.product(cs, repeat=n)] counts in base [length cs]. *)
Lemma product_repeat_numeral (cs : list ascii) (n : nat) :
  product (repeat cs n) = map (numeral cs n) (seq 0 (List.length cs ^ n)).
Proof.
  unfold numeral. induction n as [|n IH]; [reflexivity|].
  simpl repeat. simpl product. rewrite IH.
  change (List.length cs ^ S n)%nat with (List.length cs * List.length cs ^ n)%nat.
  rewrite map_seq_blocks, flat_map_nth.
  apply flat_map_ext. intros q. rewrite map_map.
  apply map_ext_in. intros r Hr. apply in_seq in Hr. simpl.
  assert (List.length cs ^ n <> 0)%nat by lia.
  rewrite Nat.div_add_l, Nat.div_small, Nat.add_0_r by lia.
  rewrite Nat.add_comm, Nat.Div0.mod_add, Nat.mod_small by lia.
  reflexivity.
Qed.

(** Counting upwards is the lexicographic order of the digits. *)
Lemma digits_of_lex (b n i j : nat) :
  (i < j)%nat -> (j < b ^ n)%nat ->
  lex_lt (digits_of b n i) (digits_of b n j).
Proof.
  revert i j. induction n as [|n IH]; intros i j Hij Hj.
  - simpl in Hj. lia.
  - simpl digits_of.
    assert (Hm : (b ^ n <> 0)%nat) by (intros E; rewrite Nat.pow_succ_r', E in Hj; lia).
    pose proof (Nat.Div0.div_le_mono i j (b ^ n) (Nat.lt_le_incl _ _ Hij)) as Hq.
    destruct (Nat.eq_dec (i / b ^ n) (j / b ^ n)) as [E|E].
    + rewrite E. apply lex_lt_tail. apply IH.
      * pose proof (Nat.div_mod_eq i (b ^ n)). pose proof (Nat.div_mod_eq j (b ^ n)).
        rewrite E in *. nia.
      * apply Nat.mod_upper_bound. exact Hm.
    + apply lex_lt_head. lia.
Qed.

Lemma digits_of_length (b n i : nat) : List.length (digits_of b n i) = n.
Proof. revert i. induction n as [|n IH]; intros i; simpl; [reflexivity | rewrite IH; reflexivity]. Qed.

(** Distinct pools give distinct tuples. *)
Lemma NoDup_flat_map {A B : Type} (f : A -> list B) (l : list A) :
  NoDup l ->
  (forall x, In x l -> NoDup (f x)) ->
  (forall x y b, In x l -> In y l -> In b (f x) -> In b (f y) -> x = y) ->
  NoDup (flat_map f l).
Proof.
  induction 1 as [|x l Hx Hl IH]; intros Hf Hd; simpl; [constructor|].
  apply NoDup_app.
  - apply Hf. left. reflexivity.
  - apply IH.
    + intros y Hy. apply Hf. right. exact Hy.
    + intros y z b Hy Hz. apply Hd; right; assumption.
  - intros b Hb Hb'. apply in_flat_map in Hb' as (y & Hy & Hby).
    apply Hx. rewrite (Hd x y b); [exact Hy | left; reflexivity | right; exact Hy
                                  | exact Hb | exact Hby].
Qed.

Lemma NoDup_map_injective {A B : Type} (f : A -> B) (l : list A) :
  (forall x y, f x = f y -> x = y) -> NoDup l -> NoDup (map f l).
Proof.
  intros Hf. apply NoDup_map_NoDup_ForallPairs. intros x y _ _. apply Hf.
Qed.

Lemma product_NoDup {A : Type} (pools : list (list A)) :
  Forall (@NoDup A) pools -> NoDup (product pools).
Proof.
  induction 1 as [|pool rest Hp _ IH]; simpl.
  - constructor; [intros [] | constructor].
  - apply NoDup_flat_map.
    + exact Hp.
    + intros x _. apply NoDup_map_injective; [|exact IH].
      intros t t' E. injection E. trivial.
    + intros x y t _ _ Hx Hy.
      apply in_map_iff in Hx as (t1 & <- & _).
      apply in_map_iff in Hy as (t2 & E & _). injection E. intros _ E'. congruence.
Qed.

(** ** The brute-force generator *)

Section BruteForce.
Import AttackSimulator.

Lemma brute_force_blocks (config : AttackConfig) :
  _brute_force_generator config =
  flat_map (words (chars (charset config)))
           (seq (min_length config) (max_length config + 1 - min_length config)).
Proof.
  unfold _brute_force_generator, range, words.
  apply flat_map_ext. intros n.
  rewrite product_repeat_numeral, map_map. reflexivity.
Qed.

Lemma brute_force_In (config : AttackConfig) (s : string) :
  In s (_brute_force_generator config) <->
  (min_length config <= String.length s <= max_length config)%nat /\
  (forall c, In c (chars s) -> In c (chars (charset config))).
Proof.
  unfold _brute_force_generator, range. rewrite in_flat_map. split.
  - intros (n & Hn & Hs). apply in_seq in Hn.
    apply in_map_iff in Hs as (t & <- & Ht).
    apply product_In, Forall2_repeat_r in Ht as [Hl Hin].
    rewrite <- length_chars, chars_join. split; [lia | exact Hin].
  - intros [Hl Hin]. exists (String.length s). split.
    + apply in_seq. lia.
    + rewrite <- (join_chars s) at 1. apply in_map.
      apply product_In, Forall2_repeat_r. split; [apply length_chars | exact Hin].
Qed.

(** Over a charset without repeated characters no candidate comes twice. *)
Lemma brute_force_NoDup (config : AttackConfig) :
  NoDup (chars (charset config)) -> NoDup (_brute_force_generator config).
Proof.
  intros Hcs. unfold _brute_force_generator, range. apply NoDup_flat_map.
  - apply seq_NoDup.
  - intros n _. apply NoDup_map_injective.
    + intros t t' E. rewrite <- (chars_join t), <- (chars_join t'), E. reflexivity.
    + apply product_NoDup. apply Forall_forall.
      intros pool Hpool. apply repeat_spec in Hpool. rewrite Hpool. exact Hcs.
  - intros n m s _ _ Hn Hm.
    apply in_map_iff in Hn as (t & <- & Ht).
    apply in_map_iff in Hm as (t' & E & Ht').
    apply product_In, Forall2_repeat_r in Ht as [Hl _].
    apply product_In, Forall2_repeat_r in Ht' as [Hl' _].
    rewrite <- Hl, <- Hl', <- (chars_join t), <- (chars_join t'), E. reflexivity.
Qed.

(** The number of candidates of each length. *)
Lemma words_length (cs : list ascii) (n : nat) :
  List.length (words cs n) = (List.length cs ^ n)%nat.
Proof. unfold words. rewrite List.length_map, List.length_seq. reflexivity. Qed.

End BruteForce.

(** C5. The brute-force generator yields, for each length from [min_length]
    to [max_length] in increasing order, the words of that length over the
    charset in lexicographic product order (the numerals of 0, 1, 2, ... in
    base [len(charset)], leftmost position most significant); a string is
    yielded exactly when its length is in the range and its characters are in
    the charset, and once only when the charset repeats no character; over
    "ab" with lengths 1 to 2 the candidates are a, b, aa, ab, ba, bb in that
    order. It holds for every range, the empty ones included. *)
Theorem brute_force_generator_enumerates (config : AttackSimulator.AttackConfig) :
  AttackSimulator._brute_force_generator config =
    flat_map (words (chars (AttackSimulator.charset config)))
             (seq (AttackSimulator.min_length config)
                  (AttackSimulator.max_length config + 1
                   - AttackSimulator.min_length config))
  /\ (forall s : string,
        In s (AttackSimulator._brute_force_generator config) <->
        (AttackSimulator.min_length config <= String.length s
         <= AttackSimulator.max_length config)%nat /\
        (forall c, In c (chars s) -> In c (chars (AttackSimulator.charset config))))
  /\ (NoDup (chars (AttackSimulator.charset config)) ->
      NoDup (AttackSimulator._brute_force_generator config))
  /\ AttackSimulator._brute_force_generator (brute_force_attack "ab" 1 2) =
      ["a"; "b"; "aa"; "ab"; "ba"; "bb"].
Proof.
  split; [apply brute_force_blocks|].
  split; [apply brute_force_In|].
  split; [apply brute_force_NoDup|].
  reflexivity.
Qed.

(** C5 over the charset ab, which repeats no character. *)
Lemma brute_force_generator_witness :
  NoDup (AttackSimulator._brute_force_generator (brute_force_attack "ab" 1 2)).
Proof.
  apply (proj1 (proj2 (proj2 (brute_force_generator_enumerates
                                (brute_force_attack "ab" 1 2))))).
  simpl. repeat constructor; simpl; intuition discriminate.
Defined.

(** ** The mask generator *)

Section Mask.
Import AttackSimulator.

Lemma mask_generator_length (m : string) :
  m <> "" ->
  Z.of_nat (List.length (_mask_generator (mask_attack m))) =
  fold_right (fun pool n => (Z.of_nat (List.length pool) * n)%Z) 1%Z (parse_mask m).
Proof.
  intros Hm. unfold _mask_generator. simpl mask.
  destruct m as [|c m]; [congruence|].
  rewrite List.length_map, product_length.
  induction (parse_mask (String c m)) as [|pool rest IH]; simpl fold_right.
  - reflexivity.
  - rewrite Nat2Z.inj_mul, IH. reflexivity.
Qed.

(** The mask of the specification: 26 * 26 * 26 * 10 candidates, each an
    uppercase letter, two lowercase letters and a digit. *)
Lemma mask_ulld_count :
  Z.of_nat (List.length (_mask_generator (mask_attack "?u?l?l?d"))) = 175760%Z.
Proof. rewrite mask_generator_length by discriminate. reflexivity. Qed.

Lemma mask_ulld_shape (s : string) :
  In s (_mask_generator (mask_attack "?u?l?l?d")) <->
  exists a b c d : ascii,
    s = String a (String b (String c (String d EmptyString))) /\
    In a (chars ascii_uppercase) /\ In b (chars ascii_lowercase) /\
    In c (chars ascii_lowercase) /\ In d (chars digits).
Proof.
  unfold _mask_generator. simpl mask. cbv iota. rewrite in_map_iff.
  change (parse_mask "?u?l?l?d")
    with [chars ascii_uppercase; chars ascii_lowercase;
          chars ascii_lowercase; chars digits].
  split.
  - intros (t & <- & Ht). apply product_In in Ht.
    inversion Ht as [|a pa t1 r1 Ha H1]; subst.
    inversion H1 as [|b pb t2 r2 Hb H2]; subst.
    inversion H2 as [|c pc t3 r3 Hc H3]; subst.
    inversion H3 as [|d pd t4 r4 Hd H4]; subst.
    inversion H4; subst.
    exists a, b, c, d. repeat split; assumption.
  - intros (a & b & c & d & -> & Ha & Hb & Hc & Hd).
    exists [a; b; c; d]. split; [reflexivity|].
    apply product_In. repeat (constructor; [assumption|]). constructor.
Qed.

(** The five placeholders and the literal positions. *)
Lemma parse_mask_placeholder (p : ascii) (pool : list ascii) (rest : string) :
  placeholder_charset p = Some pool ->
  parse_mask (String "?" (String p rest)) = pool :: parse_mask rest.
Proof. intros H. simpl. rewrite H. reflexivity. Qed.

Lemma parse_mask_literal (c : ascii) (rest : string) :
  c <> "?"%char ->
  parse_mask (String c rest) = [c] :: parse_mask rest.
Proof.
  intros H. simpl. destruct rest; [reflexivity|].
  destruct (Ascii.eqb_spec c "?"); [contradiction | reflexivity].
Qed.

Lemma parse_mask_trailing_question :
  parse_mask "?" = [["?"%char]].
Proof. reflexivity. Qed.

Lemma parse_mask_unrecognised (p : ascii) (rest : string) :
  placeholder_charset p = None ->
  parse_mask (String "?" (String p rest)) = parse_mask rest.
Proof. intros H. simpl. rewrite H. reflexivity. Qed.

End Mask.

(** C4, where the code departs from it. A question mark followed by a
    character that is no placeholder is not kept as a literal: both
    characters are skipped and the position is lost. The mask a?xb yields the
    two-character candidate ab, and the mask ?x yields the empty candidate. *)
Theorem mask_generator_drops_unrecognised_placeholder :
  AttackSimulator._mask_generator (mask_attack "a?xb") = ["ab"]
  /\ AttackSimulator._mask_generator (mask_attack "?x") = [""]
  /\ (forall (p : ascii) (rest : string),
        AttackSimulator.placeholder_charset p = None ->
        AttackSimulator.parse_mask (String "?" (String p rest)) =
        AttackSimulator.parse_mask rest).
Proof.
  split; [reflexivity|]. split; [reflexivity|].
  intros p rest H. simpl. rewrite H. reflexivity.
Qed.

(** ** The attack loop *)

Section AttackLoop.
Import AttackSimulator.

Variable config : AttackConfig.
Variable target : string.


Lemma rate_limit_first : rate_limit config 0 = Ok tt.
Proof. reflexivity. Qed.





(** With the stop flag set, the loop is left after its first candidate. *)
Lemma attack_loop_stopped (self : AttackSimulator) (c : string) (rest : list string) :
  _stop_requested self = true ->
  attack_loop self config target (c :: rest) 0 =
  if (c =? target)%string then Ok (true, 0%Z, false)
  else Ok (false, 1%Z, (1 >=? max_attempts config)%Z).
Proof.
  intros Hf. simpl. destruct (c =? target)%string; [reflexivity|].
  destruct (1 >=? max_attempts config)%Z; [reflexivity|].
  rewrite Hf. reflexivity.
Qed.


End AttackLoop.



(** C10. [stop] sets the flag and no call clears it: after [stop], whatever
    calls of [stop] and [simulate_attack] follow, the flag is set, a further
    [simulate_attack] leaves it set, and that call looks at the first
    candidate only: its result is the result on the candidate sequence cut
    after one candidate, with at most one attempt. *)
Theorem stop_flag_is_never_cleared
    (self : AttackSimulator.AttackSimulator) (calls : list call)
    (fs : AttackSimulator.filesystem) (config : AttackSimulator.AttackConfig)
    (target : string) :
  let stopped := fold_left after_call calls (AttackSimulator.stop self) in
  AttackSimulator._stop_requested stopped = true
  /\ snd (AttackSimulator.simulate_attack stopped fs config target) = stopped
  /\ fst (AttackSimulator.simulate_attack stopped fs config target) =
     AttackSimulator.run_attack stopped config target
       (firstn 1 (AttackSimulator.candidates_for fs config))
  /\ fst (AttackSimulator.simulate_attack stopped fs config target) =
     match AttackSimulator.candidates_for fs config with
     | [] =>
         Ok {| AttackSimulator.success := false;
               AttackSimulator.password_found := None;
               AttackSimulator.attempts := 0;
               AttackSimulator.ar_mode := AttackSimulator.mode config;
               AttackSimulator.stopped_by_limit := false |}
     | candidate :: _ =>
         if (candidate =? target)%string then
           Ok {| AttackSimulator.success := true;
                 AttackSimulator.password_found := Some target;
                 AttackSimulator.attempts := 0;
                 AttackSimulator.ar_mode := AttackSimulator.mode config;
                 AttackSimulator.stopped_by_limit := false |}
         else
           Ok {| AttackSimulator.success := false;
                 AttackSimulator.password_found := None;
                 AttackSimulator.attempts := 1;
                 AttackSimulator.ar_mode := AttackSimulator.mode config;
                 AttackSimulator.stopped_by_limit :=
                   (1 >=? AttackSimulator.max_attempts config)%Z |}
     end.
Proof.
  intros stopped.
  assert (Hset : AttackSimulator._stop_requested stopped = true).
  { unfold stopped. generalize (AttackSimulator.stop self) (eq_refl :
      AttackSimulator._stop_requested (AttackSimulator.stop self) = true).
    induction calls as [|c calls IH]; intros s Hs; simpl; [exact Hs|].
    apply IH. destruct c; [reflexivity | exact Hs]. }
  split; [exact Hset|]. split; [reflexivity|].
  unfold AttackSimulator.simulate_attack, AttackSimulator.run_attack. simpl fst.
  destruct (AttackSimulator.candidates_for fs config) as [|c rest].
  - split; reflexivity.
  - simpl firstn.
    rewrite !(attack_loop_stopped config target stopped) by exact Hset.
    destruct (c =? target)%string; split; reflexivity.
Qed.

(** ** Degenerate configurations *)

Section Degenerate.
Import AttackSimulator.






End Degenerate.




(** ** The hash engine *)

Section Verification.
Import HashEngine.

Variable argon2_hash : string -> string -> string.
Variable argon2_verify : string -> string -> result unit.
Variable bcrypt_hashpw : string -> Z -> string -> string.
Variable bcrypt_checkpw : string -> string -> result bool.
Variable scrypt_derive : string -> Z -> Z -> Z -> string -> string.
Variable pbkdf2_derive : digest -> string -> Z -> string -> string.
Variable hex : string -> string.

Lemma verify_password_kdf (password hash_value : string) (algorithm : HashAlgorithm) :
  is_kdf algorithm = true ->
  verify_password argon2_verify bcrypt_checkpw password hash_value algorithm = true.
Proof. destruct algorithm; intros H; try discriminate H; reflexivity. Qed.

(** Argon2id and bcrypt: a failure of the library is the answer [false]. *)
Lemma verify_password_argon2_failure (password hash_value : string) (e : exn) :
  argon2_verify hash_value password = Raise e ->
  verify_password argon2_verify bcrypt_checkpw password hash_value ARGON2ID = false.
Proof. intros H. unfold verify_password. rewrite H. reflexivity. Qed.

Lemma verify_password_bcrypt_failure (password hash_value : string) (e : exn) :
  bcrypt_checkpw password hash_value = Raise e ->
  verify_password argon2_verify bcrypt_checkpw password hash_value BCRYPT = false.
Proof. intros H. unfold verify_password. rewrite H. reflexivity. Qed.

(** Against the hash of one password, a password with another digest is
    accepted by [verify_password] and refused by the re-derivation the
    specification describes. *)
Lemma verify_password_diverges_from_rederivation
    (salt right wrong : string) (algorithm : HashAlgorithm)
    (params : option (list (string * Z))) :
  is_kdf algorithm = true ->
  let hash := hash_password argon2_hash bcrypt_hashpw scrypt_derive pbkdf2_derive hex in
  let stored := hash_value (hash salt right algorithm params) in
  hash_value (hash salt wrong algorithm params) <> stored ->
  verify_password argon2_verify bcrypt_checkpw wrong stored algorithm = true
  /\ verify_by_rederivation argon2_hash bcrypt_hashpw scrypt_derive pbkdf2_derive hex
       salt wrong algorithm params stored = false.
Proof.
  intros Hk hash stored Hne. split; [apply verify_password_kdf; exact Hk|].
  unfold verify_by_rederivation. apply String.eqb_neq. exact Hne.
Qed.

End Verification.

(** C1, where the code departs from it. For scrypt and both PBKDF2 variants
    [verify_password] derives nothing and compares nothing: it answers [true]
    for every password and every stored hash, whatever the libraries do. *)
Theorem verify_password_accepts_every_password
    (argon2_verify : string -> string -> result unit)
    (bcrypt_checkpw : string -> string -> result bool)
    (password hash_value : string) :
  HashEngine.verify_password argon2_verify bcrypt_checkpw password hash_value
    HashEngine.SCRYPT = true
  /\ HashEngine.verify_password argon2_verify bcrypt_checkpw password hash_value
       HashEngine.PBKDF2_SHA256 = true
  /\ HashEngine.verify_password argon2_verify bcrypt_checkpw password hash_value
       HashEngine.PBKDF2_SHA512 = true.
Proof. repeat split. Qed.

Section CrackTime.
Import HashEngine.

Lemma float_neq (x y : float) : Prim2SF x <> Prim2SF y -> x <> y.
Proof. intros H E. apply H. rewrite E. reflexivity. Qed.

(** Python's [//] by 2 is the floor of the half. *)
Lemma floor_half (n : Z) : (2 * (n / 2) <= n < 2 * (n / 2) + 2)%Z.
Proof. pose proof (Z.mod_pos_bound n 2). pose proof (Z.div_mod n 2). lia. Qed.

(** A keyspace whose quotient exceeds the range of a float: the division
    raises, and no estimate is returned. *)
Lemma estimate_crack_time_overflow :
  estimate_crack_time 160 95 ARGON2ID true = Raise OverflowError.
Proof. vm_compute. reflexivity. Qed.

(** The bands of [_format_time] at their thresholds, and the rounding of a
    half to the even digit. *)
Example format_time_bands :
  map _format_time
    [0.5; 1; 30; 60; 90; 3600; 7200; 86400; 172800; 31536000; 63072000;
     3153600000; 15768000000; 31536000000; 78840000000; 31536000000000;
     78840000000000; 31536000000000000; 78840000000000000; 0; -2]%float =
  [ "500.00 milliseconds"; "1.00 seconds"; "30.00 seconds"; "1.00 minutes";
    "1.50 minutes"; "1.00 hours"; "2.00 hours"; "1.00 days"; "2.00 days";
    "1.00 years"; "2.00 years"; "100 years"; "500 years"; "1 thousand years";
    "2 thousand years"; "1 million years"; "2 million years"; "1 billion years";
    "2 billion years"; "0.00 milliseconds"; "-2000.00 milliseconds" ].
Proof. vm_compute. reflexivity. Qed.

(** Eight lowercase letters hashed with bcrypt, on the GPU. *)
Example estimate_crack_time_lowercase :
  estimate_crack_time 8 26 BCRYPT true =
  Ok {| seconds := 208827.064576;
        human_readable := "2.42 days";
        hashes_required := 104413532288;
        algorithm := BCRYPT |}.
Proof. vm_compute. reflexivity. Qed.

(** Twenty characters over 95 symbols: the keyspace is far beyond 64 bits and
    stays exact. *)
Example estimate_crack_time_long :
  estimate_crack_time 20 95 ARGON2ID true =
  Ok {| seconds := 3.584859224085422e+34;
        human_readable := "1136751402868284544 billion years";
        hashes_required := 1792429612042711171787052202224731445312;
        algorithm := ARGON2ID |}.
Proof. vm_compute. reflexivity. Qed.

Lemma estimate_crack_time_rate (password_length : nat) (charset_size : Z)
    (algorithm : HashAlgorithm) (use_gpu : bool) :
  estimate_crack_time password_length charset_size algorithm use_gpu =
  (seconds <- int_true_divide (charset_size ^ Z.of_nat password_length / 2)
                              (hashes_per_second algorithm use_gpu) ;;
   Ok {| seconds := seconds;
         human_readable := _format_time seconds;
         hashes_required := (charset_size ^ Z.of_nat password_length / 2)%Z;
         algorithm := algorithm |}).
Proof. reflexivity. Qed.

End CrackTime.

(** C3, as stated, fails: without the GPU the rate of scrypt is 1,000 hashes
    per second, not 2,000, so that 5,000 hashes take 5 seconds and not 2.5;
    likewise PBKDF2-SHA256 and bcrypt run at 1,000, not at 100,000 and
    10,000. *)
Lemma cpu_rate_is_not_per_algorithm :
  HashEngine.hashes_per_second HashEngine.SCRYPT false <> 2000%Z
  /\ HashEngine.hashes_per_second HashEngine.PBKDF2_SHA256 false <> 100000%Z
  /\ HashEngine.hashes_per_second HashEngine.BCRYPT false <> 10000%Z
  /\ (exists e : HashEngine.CrackEstimate,
        HashEngine.estimate_crack_time 4 10 HashEngine.SCRYPT false = Ok e
        /\ HashEngine.hashes_required e = 5000%Z
        /\ HashEngine.seconds e = 5%float
        /\ int_true_divide 5000 2000 = Ok 2.5%float
        /\ HashEngine.seconds e <> 2.5%float).
Proof.
  split; [discriminate|]. split; [discriminate|]. split; [discriminate|].
  eexists. split; [vm_compute; reflexivity|].
  split; [reflexivity|]. split; [reflexivity|].
  split; [vm_compute; reflexivity|].
  apply float_neq. vm_compute. discriminate.
Qed.

(** C3, amended. With [use_gpu = false], [estimate_crack_time] uses 1,000
    hashes per second for every algorithm, one rate shared by all of them
    (the calibrated CPU rate of Argon2id only); the seconds, the formatted
    duration and the number of hashes of the estimate therefore do not depend
    on the algorithm. *)
Theorem cpu_rate_is_one_thousand
    (password_length : nat) (charset_size : Z)
    (algorithm other : HashEngine.HashAlgorithm) :
  HashEngine.hashes_per_second algorithm false = 1000%Z
  /\ HashEngine.estimate_crack_time password_length charset_size algorithm false =
     (seconds <- int_true_divide (charset_size ^ Z.of_nat password_length / 2) 1000 ;;
      Ok {| HashEngine.seconds := seconds;
            HashEngine.human_readable := HashEngine._format_time seconds;
            HashEngine.hashes_required :=
              (charset_size ^ Z.of_nat password_length / 2)%Z;
            HashEngine.algorithm := algorithm |})
  /\ (e <- HashEngine.estimate_crack_time password_length charset_size algorithm false ;;
      Ok (HashEngine.seconds e, HashEngine.human_readable e,
          HashEngine.hashes_required e)) =
     (e <- HashEngine.estimate_crack_time password_length charset_size other false ;;
      Ok (HashEngine.seconds e, HashEngine.human_readable e,
          HashEngine.hashes_required e)).
Proof.
  split; [reflexivity|]. split; [reflexivity|].
  unfold HashEngine.estimate_crack_time, HashEngine.hashes_per_second.
  destruct (int_true_divide _ _); reflexivity.
Qed.

(** C8. [estimate_crack_time] computes the keyspace
    [charset_size ** password_length] as an exact integer, takes the floor of
    its half as [hashes_required], and divides that integer by the rate with
    Python's integer division into a float (the correctly rounded quotient;
    the division itself raises [OverflowError] when the quotient is beyond
    the range of a float) to obtain [seconds], which [_format_time] renders.
    For length 4, charset size 10, PBKDF2-SHA256 on the GPU: 5000 hashes,
    0.0005 seconds, 0.50 milliseconds. *)
Theorem estimate_crack_time_computation
    (password_length : nat) (charset_size : Z)
    (algorithm : HashEngine.HashAlgorithm) (use_gpu : bool) :
  let total_combinations := (charset_size ^ Z.of_nat password_length)%Z in
  let avg_combinations := (total_combinations / 2)%Z in
  (2 * avg_combinations <= total_combinations < 2 * avg_combinations + 2)%Z
  /\ HashEngine.estimate_crack_time password_length charset_size algorithm use_gpu =
     (seconds <- int_true_divide avg_combinations
                   (HashEngine.hashes_per_second algorithm use_gpu) ;;
      Ok {| HashEngine.seconds := seconds;
            HashEngine.human_readable := HashEngine._format_time seconds;
            HashEngine.hashes_required := avg_combinations;
            HashEngine.algorithm := algorithm |})
  /\ HashEngine.estimate_crack_time 4 10 HashEngine.PBKDF2_SHA256 true =
     Ok {| HashEngine.seconds := 0.0005%float;
           HashEngine.human_readable := "0.50 milliseconds";
           HashEngine.hashes_required := 5000;
           HashEngine.algorithm := HashEngine.PBKDF2_SHA256 |}.
Proof.
  intros total_combinations avg_combinations.
  split; [apply floor_half|]. split; [reflexivity|].
  vm_compute. reflexivity.
Qed.

(** ** The password analyzer *)

Section Analyzer.
Import PasswordAnalyzer.

Lemma charset_size_bounds (password : string) :
  (1 <= _calculate_charset_size password <= 95)%Z.
Proof.
  unfold _calculate_charset_size.
  destruct (any_in ascii_lowercase password), (any_in ascii_uppercase password),
    (any_in digits password), (any_in punctuation password),
    (char_in " " password); simpl; lia.
Qed.

Lemma ln_2_pos : (0 < ln 2)%R.
Proof. pose proof ln_lt_2. lra. Qed.

Lemma math_log2_pos (x : Z) :
  (1 <= x)%Z -> math_log2 x = Ok (ln (IZR x) / ln 2)%R /\ (0 <= ln (IZR x) / ln 2)%R.
Proof.
  intros H. unfold math_log2.
  destruct (Z.leb_spec x 0); [lia|]. split; [reflexivity|].
  apply Rmult_le_pos; [|left; apply Rinv_0_lt_compat, ln_2_pos].
  destruct (Z.eq_dec x 1) as [->|Hx].
  - rewrite ln_1. lra.
  - left. rewrite <- ln_1. apply ln_increasing; [lra|]. apply IZR_lt. lia.
Qed.

Lemma pow_ge_1 (c : Z) (n : nat) : (1 <= c)%Z -> (1 <= c ^ Z.of_nat n)%Z.
Proof.
  intros H. pose proof (Z.pow_le_mono_l 1 c (Z.of_nat n)) as P.
  rewrite Z.pow_1_l in P by lia. apply P. lia.
Qed.

Lemma calculate_entropy_value (password : string) (charset_size : Z) :
  (1 <= charset_size)%Z ->
  _calculate_entropy password charset_size =
  Ok (if (String.length password =? 0)%nat then 0%R
      else (ln (IZR (charset_size ^ Z.of_nat (String.length password))) / ln 2)%R).
Proof.
  intros H. unfold _calculate_entropy.
  destruct (Nat.eqb_spec (String.length password) 0); [reflexivity|].
  destruct (Z.eqb_spec charset_size 0); [lia|]. simpl orb.
  apply math_log2_pos, pow_ge_1, H.
Qed.

Lemma calculate_entropy_nonneg (password : string) (charset_size : Z) :
  (1 <= charset_size)%Z ->
  exists entropy : R,
    _calculate_entropy password charset_size = Ok entropy /\ (0 <= entropy)%R.
Proof.
  intros H. rewrite calculate_entropy_value by exact H. eexists. split; [reflexivity|].
  destruct (String.length password =? 0)%nat; [lra|].
  apply math_log2_pos, pow_ge_1, H.
Qed.

Lemma entropy_of_defined (password : string) :
  _calculate_entropy password (_calculate_charset_size password) =
  Ok (entropy_of password) /\ (0 <= entropy_of password)%R.
Proof.
  unfold entropy_of.
  destruct (calculate_entropy_nonneg password (_calculate_charset_size password))
    as (e & -> & He); [apply charset_size_bounds|].
  split; [reflexivity | exact He].
Qed.

(** [int] of a float that is not negative is its floor. *)
Lemma int_of_float_floor (x : R) : (0 <= x)%R -> int_of_float x = Int_part x.
Proof. intros H. unfold int_of_float. destruct (Rle_dec 0 x); [reflexivity | contradiction]. Qed.

Lemma count_severity_cons (level : string) (p : PatternMatch)
    (patterns : list PatternMatch) :
  count_severity level (p :: patterns) =
  ((if (severity p =? level)%string then 1 else 0) + count_severity level patterns)%Z.
Proof.
  unfold count_severity. simpl filter.
  destruct (severity p =? level); [|reflexivity].
  simpl List.length. lia.
Qed.

(** The loop over the patterns subtracts 25, 15 and 5 per pattern of each
    severity. *)
Lemma deductions_sum (patterns : list PatternMatch) (score : Z) :
  fold_left
    (fun score pattern =>
       if severity pattern =? "high" then (score - 25)%Z
       else if severity pattern =? "medium" then (score - 15)%Z
       else if severity pattern =? "low" then (score - 5)%Z
       else score)
    patterns score =
  (score - 25 * count_severity "high" patterns
         - 15 * count_severity "medium" patterns
         - 5 * count_severity "low" patterns)%Z.
Proof.
  revert score.
  induction patterns as [|p patterns IH]; intros score; simpl fold_left.
  - unfold count_severity. simpl. lia.
  - rewrite IH, !count_severity_cons.
    destruct (String.eqb_spec (severity p) "high") as [E1|E1];
      destruct (String.eqb_spec (severity p) "medium") as [E2|E2];
      destruct (String.eqb_spec (severity p) "low") as [E3|E3];
      try (rewrite E1 in *; discriminate);
      try (rewrite E2 in *; discriminate); lia.
Qed.

Lemma calculate_score_formula (password : string) (entropy : R)
    (patterns : list PatternMatch) :
  (0 <= entropy)%R ->
  _calculate_score password entropy patterns =
  clamp (Z.min 100 (Int_part (entropy / 128 * 100))
         - 25 * count_severity "high" patterns
         - 15 * count_severity "medium" patterns
         - 5 * count_severity "low" patterns
         + length_bonus password).
Proof.
  intros H. unfold _calculate_score, clamp, length_bonus.
  rewrite deductions_sum, int_of_float_floor by lra.
  destruct (16 <=? String.length password)%nat; [reflexivity|].
  destruct (12 <=? String.length password)%nat; [reflexivity|].
  f_equal. f_equal. lia.
Qed.

Lemma calculate_score_bounds (password : string) (entropy : R)
    (patterns : list PatternMatch) :
  (0 <= _calculate_score password entropy patterns <= 100)%Z.
Proof. unfold _calculate_score. lia. Qed.

Lemma ln_le_mono (x y : R) : (0 < x)%R -> (x <= y)%R -> (ln x <= ln y)%R.
Proof.
  intros Hx Hle. destruct Hle as [H|H].
  - left. apply ln_increasing; assumption.
  - right. rewrite H. reflexivity.
Qed.

Lemma ln_IZR_pow2 (L : Z) : (0 <= L)%Z -> ln (IZR (2 ^ L)) = (IZR L * ln 2)%R.
Proof.
  intros H. rewrite <- (Z2Nat.id L H) at 1. rewrite <- pow_IZR.
  rewrite ln_pow by lra. rewrite INR_IZR_INZ, Z2Nat.id by exact H. reflexivity.
Qed.

(** The floor of a scaled logarithm, in integers:
    [floor(k * log2(N) / d) = floor(log2(N ** k)) // d]. *)
Lemma floor_scaled_log2 (N : Z) (k : nat) (d : Z) :
  (1 <= N)%Z -> (0 < d)%Z ->
  Int_part (INR k * (ln (IZR N) / ln 2) / IZR d) = (Z.log2 (N ^ Z.of_nat k) / d)%Z.
Proof.
  intros HN Hd. symmetry. apply Int_part_spec.
  pose proof (pow_ge_1 N k HN) as HM.
  remember (N ^ Z.of_nat k)%Z as M eqn:EM.
  destruct (Z.log2_spec M) as [Hlo Hhi]; [lia|]. unfold Z.succ in Hhi.
  pose proof (Z.log2_nonneg M) as HL.
  remember (Z.log2 M) as L eqn:EL.
  assert (E : ln (IZR M) = (INR k * ln (IZR N))%R).
  { rewrite EM, <- pow_IZR. apply ln_pow. apply IZR_lt. lia. }
  assert (Hlo' : (IZR L * ln 2 <= INR k * ln (IZR N))%R).
  { rewrite <- E, <- ln_IZR_pow2 by exact HL.
    apply ln_le_mono; [apply IZR_lt; lia | apply IZR_le; exact Hlo]. }
  assert (Hhi' : (INR k * ln (IZR N) < (IZR L + 1) * ln 2)%R).
  { replace ((IZR L + 1) * ln 2)%R with (ln (IZR (2 ^ (L + 1)))).
    - rewrite <- E. apply ln_increasing; [apply IZR_lt; lia | apply IZR_lt; exact Hhi].
    - rewrite ln_IZR_pow2 by lia. rewrite plus_IZR. reflexivity. }
  pose proof ln_2_pos as H2.
  remember (ln (IZR N) / ln 2)%R as y eqn:Ey.
  assert (Ey' : ln (IZR N) = (y * ln 2)%R) by (rewrite Ey; field; lra).
  rewrite Ey' in Hlo', Hhi'.
  remember (INR k * y)%R as z eqn:Ez.
  assert (Hz1 : (IZR L <= z)%R) by (rewrite Ez; nra).
  assert (Hz2 : (z < IZR L + 1)%R) by (rewrite Ez; nra).
  pose proof (Z.div_mod L d ltac:(lia)) as Hdm.
  pose proof (Z.mod_pos_bound L d Hd) as Hb.
  assert (K1 : (d * (L / d) <= L)%Z) by lia.
  assert (K2 : (L + 1 <= d * (L / d) + d)%Z) by lia.
  apply IZR_le in K1, K2. rewrite mult_IZR in K1.
  rewrite !plus_IZR, mult_IZR in K2.
  assert (Hd' : (0 < IZR d)%R) by (apply IZR_lt; exact Hd).
  remember (IZR (L / d)) as q eqn:Eq.
  assert (Q : (z / IZR d * IZR d = z)%R) by (field; lra).
  remember (z / IZR d)%R as w eqn:Ew.
  split; nra.
Qed.

Lemma entropy_of_value (password : string) :
  entropy_of password =
  (ln (IZR (_calculate_charset_size password ^ Z.of_nat (String.length password)))
   / ln 2)%R.
Proof.
  unfold entropy_of. rewrite calculate_entropy_value by apply charset_size_bounds.
  destruct (Nat.eqb_spec (String.length password) 0) as [E|E]; [|reflexivity].
  rewrite E. simpl Z.of_nat. rewrite Z.pow_0_r, ln_1. lra.
Qed.

(** The score of a password, computed in integers. *)
Lemma calculate_score_in_integers (password : string) :
  _calculate_score password (entropy_of password) (_detect_patterns password) =
  score_of password.
Proof.
  rewrite calculate_score_formula by apply entropy_of_defined.
  unfold score_of. cbv zeta. do 5 f_equal.
  rewrite <- floor_scaled_log2;
    [| apply pow_ge_1; apply charset_size_bounds | lia].
  rewrite entropy_of_value, INR_IZR_INZ. do 2 f_equal.
  change (IZR (Z.of_nat 100)) with 100%R. field. pose proof ln_2_pos. lra.
Qed.

Lemma analyze_score (password : string) (a : PasswordAnalysis) :
  analyze password = Ok a ->
  score a = _calculate_score password (entropy_of password) (_detect_patterns password)
  /\ entropy_bits a = entropy_of password
  /\ patterns a = _detect_patterns password
  /\ strength a = _categorize_strength (score a) (entropy_bits a).
Proof.
  unfold analyze. rewrite (proj1 (entropy_of_defined password)). simpl bind.
  destruct (_estimate_crack_times _ _ _) as [ct|e]; simpl bind; [|discriminate].
  intros H. injection H as <-. repeat split.
Qed.

(** [analyze] returns whenever the crack-time table can be computed. *)
Lemma analyze_defined (password : string) (ct : list (string * (string * string))) :
  _estimate_crack_times password (String.length password)
    (_calculate_charset_size password) = Ok ct ->
  exists a, analyze password = Ok a.
Proof.
  intros H. unfold analyze. rewrite (proj1 (entropy_of_defined password)). simpl bind.
  rewrite H. simpl bind. eexists. reflexivity.
Qed.

Example detect_patterns_password :
  _detect_patterns "password" =
  [ {| pattern_type := "Common Password";
       description := "This is a commonly used password";
       severity := "high";
       position := (0, 8)%nat |} ].
Proof. reflexivity. Qed.

(** The common password of the specification: entropy 37.6 bits gives 29,
    the common-password pattern takes 25, and the strength is the lowest. *)
Example score_of_password :
  _calculate_score "password" (entropy_of "password") (_detect_patterns "password")
  = 4%Z
  /\ forall a : PasswordAnalysis,
       analyze "password" = Ok a -> score a = 4%Z /\ strength a = VERY_WEAK.
Proof.
  assert (E : _calculate_score "password" (entropy_of "password")
                (_detect_patterns "password") = 4%Z).
  { rewrite calculate_score_in_integers. vm_compute. reflexivity. }
  split; [exact E|]. intros a Ha.
  pose proof (analyze_score "password" a Ha) as (Hs & _ & _ & Hst).
  rewrite E in Hs. split; [exact Hs|].
  rewrite Hst, Hs. reflexivity.
Qed.

Example charset_sizes :
  map _calculate_charset_size [""; " "; "abc"; "Abc1"; "aB3 !"] =
  [1; 1; 26; 62; 95]%Z.
Proof. reflexivity. Qed.

End Analyzer.

(** C7. The score [analyze] gives a password is
    [min(100, floor(entropy_bits / 128 * 100))], minus 25 for each pattern of
    high severity, 15 for each of medium and 5 for each of low severity, plus
    10 when the length is at least 16 and otherwise 5 when it is at least 12,
    clamped to the range 0 to 100; so the score lies between 0 and 100. The
    floor is that of the real quotient, and [score_of] computes the same
    score in integers. *)
Theorem analysis_score_formula (password : string) :
  let entropy_bits := entropy_of password in
  let patterns := PasswordAnalyzer._detect_patterns password in
  let s := PasswordAnalyzer._calculate_score password entropy_bits patterns in
  PasswordAnalyzer._calculate_entropy password
    (PasswordAnalyzer._calculate_charset_size password) = Ok entropy_bits
  /\ s = clamp (Z.min 100 (Int_part (entropy_bits / 128 * 100))
               - 25 * count_severity "high" patterns
               - 15 * count_severity "medium" patterns
               - 5 * count_severity "low" patterns
               + length_bonus password)
  /\ s = score_of password
  /\ (0 <= s <= 100)%Z
  /\ (forall a : PasswordAnalyzer.PasswordAnalysis,
        PasswordAnalyzer.analyze password = Ok a ->
        PasswordAnalyzer.score a = s
        /\ PasswordAnalyzer.entropy_bits a = entropy_bits
        /\ PasswordAnalyzer.patterns a = patterns
        /\ (0 <= PasswordAnalyzer.score a <= 100)%Z).
Proof.
  intros entropy_bits patterns s.
  destruct (entropy_of_defined password) as [He Hpos].
  split; [exact He|].
  split; [apply calculate_score_formula; exact Hpos|].
  split; [apply calculate_score_in_integers|].
  split; [apply calculate_score_bounds|].
  intros a Ha. apply analyze_score in Ha as (Hs & Hb & Hp & _).
  repeat split; try assumption; rewrite Hs; apply calculate_score_bounds.
Qed.

(** C7 at a password that [analyze] accepts. *)
Lemma analysis_score_formula_witness :
  exists a : PasswordAnalyzer.PasswordAnalysis,
    PasswordAnalyzer.analyze "Tr0ub4dor&3" = Ok a
    /\ (0 <= PasswordAnalyzer.score a <= 100)%Z.
Proof.
  edestruct (analyze_defined "Tr0ub4dor&3") as [a Ha]; [vm_compute; reflexivity|].
  exists a. split; [exact Ha|].
  apply (proj2 (proj2 (proj2 (proj2 (analysis_score_formula "Tr0ub4dor&3")))) a Ha).
Defined.



